(** * Memory Match service worker (sw.js): offline cache proxy

    A shallow embedding of [src/sw.js].  The worker is event-handler glue
    over services of the browser: the cache storage ([caches]), the
    network ([fetch]), the console, the notification service and the
    client list.  The handlers are translated one by one into a small
    state-and-rejection monad ([Task]) over a [World] that holds the cache
    storage, the cache writes that were issued without being awaited, and
    the chronological trace of every call made to the browser.

    The browser services are not part of the repository; the part
    "Browser services" below fixes the model of them that the handlers run
    against:
    - a cache partition is a total key/value store from request
      descriptors (method and URL) to responses, and the cache storage maps
      partition names to partitions;
    - the outcome of a network fetch is given by an oracle
      [Request -> option Response], [None] standing for a fetch that
      throws;
    - the cache storage is changed by the worker's handlers only;
    - a handler runs to completion without another handler interleaving;
      the one call the source does not await ([cache.put] in
      [networkFirstStrategy]) is recorded as a detached write that lands in
      a later step of its own. *)

From Stdlib Require Import ZArith Ascii String.
From stdpp Require Import gmap strings list fin_maps.

Open Scope string_scope.
Open Scope Z_scope.
Open Scope list_scope.

(** ** Data model *)

Record Request := mkRequest {
  method : string;
  url : string
}.

Record Response := mkResponse {
  status : Z;
  statusText : string;
  headers : list (string * string);
  body : string
}.

(** A cache partition, keyed by request descriptor (method, URL). *)
Abbreviation Cache := (gmap (string * string) Response).

Definition req_key (request : Request) : string * string :=
  (method request, url request).

Record NotificationAction := mkAction {
  action : string;
  action_title : string
}.

(** The [options] object handed to [showNotification]. *)
Record NotificationOptions := mkOptions {
  opt_body : string;
  opt_icon : string;
  opt_badge : string;
  opt_vibrate : list Z;
  opt_data : option string;
  opt_actions : list NotificationAction
}.

Record Notification := mkNotification {
  notification_title : string;
  notification_options : NotificationOptions
}.

(** The JSON payload of a push message: [{ title?, body?, icon?, url? }]. *)
Record PushData := mkPushData {
  push_title : option string;
  push_body : option string;
  push_icon : option string;
  push_url : option string
}.

(** The [data] of a message event, as far as the worker reads it. *)
Record MessageData := mkMessageData {
  msg_type : option string
}.

(** Every call the worker makes to a browser service, in program order. *)
Inductive Effect :=
| ConsoleLog (args : list string)
| CachesOpen (name : string)
| CachesKeys
| CachesDelete (name : string)
| CacheAddAll (name : string) (requests : list string)
| CachePut (name : string) (request : Request) (response : Response)
| CacheMatch (name : string) (request : Request)
| NetworkFetch (request : Request)
| SkipWaiting
| ClientsClaim
| ShowNotification (title : string) (options : NotificationOptions)
| NotificationClose
| OpenWindow (target : string).

Record World := mkWorld {
  caches : gmap string Cache;
  detached : list (string * Request * Response);
  trace : list Effect
}.

Definition Network := Request → option Response.

(** ** Promises: state passing with rejection *)

Inductive Settled (A : Type) :=
| Fulfilled (a : A)
| Rejected (reason : string).
Arguments Fulfilled {A} a.
Arguments Rejected {A} reason.

Definition Task (A : Type) := World → Settled A * World.

Definition ret {A} (a : A) : Task A := λ w, (Fulfilled a, w).

Definition throw {A} (reason : string) : Task A := λ w, (Rejected reason, w).

(** [await] (and [.then]): continue with the value, or pass the rejection on. *)
Definition await {A B} (m : Task A) (k : A → Task B) : Task B :=
  λ w, match m w with
       | (Fulfilled a, w') => k a w'
       | (Rejected e, w') => (Rejected e, w')
       end.

(** [try { m } catch (error) { h error }] *)
Definition try_catch {A} (m : Task A) (h : string → Task A) : Task A :=
  λ w, match m w with
       | (Fulfilled a, w') => (Fulfilled a, w')
       | (Rejected e, w') => h e w'
       end.

Notation "x <- m ;; k" := (await m (λ x, k))
  (at level 100, m at next level, right associativity).
Notation "m ;;; k" := (await m (λ _, k))
  (at level 100, right associativity).

(** [Promise.all] over an array of promises created left to right. *)
Fixpoint promise_all {A} (ps : list (Task A)) : Task (list A) :=
  match ps with
  | [] => ret []
  | p :: ps' => a <- p ;; rest <- promise_all ps' ;; ret (a :: rest)
  end.

(** ** Browser services *)

Definition emit (e : Effect) : Task unit :=
  λ w, (Fulfilled tt, mkWorld (caches w) (detached w) (trace w ++ [e])).

Definition console_log (args : list string) : Task unit :=
  emit (ConsoleLog args).

(** [caches.open(name)]: the partition is created, empty, when absent.
    The handle returned is the partition's name. *)
Definition open_partition (name : string) (cs : gmap string Cache)
  : gmap string Cache :=
  match cs !! name with
  | Some _ => cs
  | None => <[name := ∅]> cs
  end.

Definition caches_open (name : string) : Task string :=
  λ w, (Fulfilled name,
        mkWorld (open_partition name (caches w)) (detached w)
                (trace w ++ [CachesOpen name])).

(** [caches.keys()]: the names of the existing partitions. *)
Definition caches_keys : Task (list string) :=
  λ w, (Fulfilled (map_to_list (caches w)).*1,
        mkWorld (caches w) (detached w) (trace w ++ [CachesKeys])).

(** [caches.delete(name)]: resolves to whether the partition existed. *)
Definition caches_delete (name : string) : Task bool :=
  λ w, (Fulfilled (bool_decide (is_Some (caches w !! name))),
        mkWorld (delete name (caches w)) (detached w)
                (trace w ++ [CachesDelete name])).

(** [cache.match(request)] *)
Definition lookup_in (name : string) (request : Request)
    (cs : gmap string Cache) : option Response :=
  c ← cs !! name; c !! req_key request.

Definition cache_match (cache : string) (request : Request)
  : Task (option Response) :=
  λ w, (Fulfilled (lookup_in cache request (caches w)),
        mkWorld (caches w) (detached w)
                (trace w ++ [CacheMatch cache request])).

(** The store operation behind [cache.put] and [cache.addAll]. *)
Definition store (name : string) (request : Request) (response : Response)
    (cs : gmap string Cache) : gmap string Cache :=
  alter (insert (req_key request) response) name cs.

(** [cache.put(request, response)] when the caller does not await it: the
    call is made, the write lands later (see [settle]). *)
Definition cache_put_detached (cache : string) (request : Request)
    (response : Response) : Task unit :=
  λ w, (Fulfilled tt,
        mkWorld (caches w) (detached w ++ [(cache, request, response)])
                (trace w ++ [CachePut cache request response])).

(** One detached write lands: the [i]-th pending one.  A write whose
    partition was deleted in the meantime is lost. *)
Definition settle (i : nat) (w : World) : World :=
  match detached w !! i with
  | Some (name, request, response) =>
      mkWorld (store name request response (caches w))
              (delete i (detached w)) (trace w)
  | None => w
  end.

(** [fetch(request)] *)
Definition fetch (net : Network) (request : Request) : Task Response :=
  λ w, let w' := mkWorld (caches w) (detached w)
                         (trace w ++ [NetworkFetch request]) in
       match net request with
       | Some response => (Fulfilled response, w')
       | None => (Rejected "TypeError: Failed to fetch", w')
       end.

Definition skipWaiting : Task unit := emit SkipWaiting.
Definition clients_claim : Task unit := emit ClientsClaim.
Definition showNotification (title : string) (options : NotificationOptions)
  : Task unit := emit (ShowNotification title options).
Definition notification_close : Task unit := emit NotificationClose.
Definition clients_openWindow (target : string) : Task unit :=
  emit (OpenWindow target).

(** [new URL(href).protocol]: the scheme with its colon, that is the
    characters of the (absolute, serialised) URL up to the first colon. *)
Fixpoint protocol (href : string) : string :=
  match href with
  | EmptyString => EmptyString
  | String c rest =>
      if Ascii.eqb c ":"%char then String c EmptyString
      else String c (protocol rest)
  end.

(** [a || b] on a value that is a string or undefined: the empty string
    and undefined are falsy. *)
Definition truthy (v : option string) : bool :=
  match v with
  | Some s => negb (String.eqb s "")
  | None => false
  end.

Definition js_or (v : option string) (default : string) : string :=
  match v with
  | Some s => if String.eqb s "" then default else s
  | None => default
  end.

(** [JSON.stringify] on an object whose values are strings.  Strings are
    UTF-8 byte sequences here; bytes above 127 pass through unchanged, as
    the characters they encode do in JavaScript. *)
Definition dquote : ascii := "034"%char.
Definition backslash : ascii := "092"%char.

Definition hex_digit (n : N) : ascii :=
  (if n <? 10 then ascii_of_N (48 + n) else ascii_of_N (87 + n))%N.

Definition json_escape (c : ascii) : string :=
  let n := N_of_ascii c in
  (if n =? 34 then String backslash (String dquote "")
   else if n =? 92 then String backslash (String backslash "")
   else if n =? 8 then String backslash "b"
   else if n =? 9 then String backslash "t"
   else if n =? 10 then String backslash "n"
   else if n =? 12 then String backslash "f"
   else if n =? 13 then String backslash "r"
   else if n <? 32 then
     String backslash
       ("u00" +:+ String (hex_digit (n / 16)) (String (hex_digit (n mod 16)) ""))
   else String c "")%N.

Fixpoint json_escape_string (s : string) : string :=
  match s with
  | EmptyString => EmptyString
  | String c rest => json_escape c +:+ json_escape_string rest
  end.

Definition json_quote (s : string) : string :=
  String dquote (json_escape_string s +:+ String dquote "").

Fixpoint json_members (fields : list (string * string)) : string :=
  match fields with
  | [] => ""
  | [(k, v)] => json_quote k +:+ ":" +:+ json_quote v
  | (k, v) :: rest => json_quote k +:+ ":" +:+ json_quote v +:+ "," +:+ json_members rest
  end.

Definition JSON_stringify (fields : list (string * string)) : string :=
  "{" +:+ json_members fields +:+ "}".

(** ** The worker *)

Definition CACHE_NAME : string := "memory-match-v2.3.0".
Definition RUNTIME_CACHE : string := "memory-match-runtime".

Definition STATIC_ASSETS : list string :=
  ["./"; "./index.html"; "./manifest.json"; "./logo.png"].

Definition offline_message : string :=
  "האפליקציה זמינה במצב לא מקוון, אך המשאב המבוקש לא נמצא במטמון".

Definition offline_response : Response :=
  mkResponse 503 "Service Unavailable"
    [("Content-Type", "application/json")]
    (JSON_stringify [("error", "Offline and resource not cached");
                     ("message", offline_message)]).

Section Worker.

(** The URL of the directory the worker script is served from (it ends in
    a slash); relative asset paths are resolved against it. *)
Variable location : string.

Definition resolve_url (path : string) : string :=
  match path with
  | String "." (String "/" rest) => location +:+ rest
  | _ => location +:+ path
  end.

Definition asset_request (path : string) : Request :=
  mkRequest "GET" (resolve_url path).

(** [cache.addAll(requests)]: every request is fetched; a fetch fails when
    the network throws or when the response is one [addAll] refuses (a
    status outside 200..299, or 206).  When one of the fetches fails the
    promise rejects and nothing is written, otherwise every response is
    stored under its request. *)
Definition addAll_accepts (response : Response) : bool :=
  (200 <=? status response) && (status response <=? 299)
  && negb (status response =? 206).

Definition fetch_entry (net : Network) (path : string)
  : option (Request * Response) :=
  response ← net (asset_request path);
  if addAll_accepts response then Some (asset_request path, response)
  else None.

Definition store_all (cache : string) (entries : list (Request * Response))
    (cs : gmap string Cache) : gmap string Cache :=
  foldl (λ acc e, store cache e.1 e.2 acc) cs entries.

Definition cache_addAll (net : Network) (cache : string)
    (requests : list string) : Task unit :=
  λ w, let tr := trace w ++ [CacheAddAll cache requests] in
       match mapM (fetch_entry net) requests with
       | Some entries =>
           (Fulfilled tt,
            mkWorld (store_all cache entries (caches w)) (detached w) tr)
       | None =>
           (Rejected "TypeError: Failed to fetch",
            mkWorld (caches w) (detached w) tr)
       end.

(** *** install *)
Definition install_listener (net : Network) : Task unit :=
  console_log ["[SW] Installing Service Worker v2.3.0..."] ;;;
  cache <- caches_open CACHE_NAME ;;
  console_log ["[SW] Caching static assets"] ;;;
  cache_addAll net cache STATIC_ASSETS ;;;
  console_log ["[SW] Installation complete"] ;;;
  skipWaiting.

(** *** activate *)
Definition delete_if_old (cacheName : string) : Task unit :=
  if negb (String.eqb cacheName CACHE_NAME)
     && negb (String.eqb cacheName RUNTIME_CACHE)
  then console_log ["[SW] Deleting old cache:"; cacheName] ;;;
       caches_delete cacheName ;;;
       ret tt
  else ret tt.

Definition activate_listener : Task unit :=
  console_log ["[SW] Activating Service Worker v2.3.0..."] ;;;
  cacheNames <- caches_keys ;;
  promise_all (map delete_if_old cacheNames) ;;;
  console_log ["[SW] Activation complete"] ;;;
  clients_claim.

(** *** fetch *)
Definition networkFirstStrategy (net : Network) (request : Request)
  : Task Response :=
  cache <- caches_open RUNTIME_CACHE ;;
  try_catch
    (networkResponse <- fetch net request ;;
     (if status networkResponse =? 200
      then cache_put_detached cache request networkResponse
      else ret tt) ;;;
     ret networkResponse)
    (λ error,
     console_log ["[SW] Network failed, trying cache for:"; url request] ;;;
     cachedResponse <- cache_match cache request ;;
     match cachedResponse with
     | Some response => ret response
     | None =>
         staticCache <- caches_open CACHE_NAME ;;
         staticResponse <- cache_match staticCache request ;;
         match staticResponse with
         | Some response => ret response
         | None => ret offline_response
         end
     end).

(** What the fetch listener leaves the browser with: no [respondWith], so
    the request proceeds as if there were no worker, or the promise handed
    to [respondWith]. *)
Inductive Interception :=
| PassThrough
| RespondWith (response : Settled Response).

Definition fetch_listener (net : Network) (request : Request)
  : World → Interception * World :=
  λ w, if negb (String.eqb (method request) "GET") then (PassThrough, w)
       else if negb (String.prefix "http" (protocol (url request)))
       then (PassThrough, w)
       else let (r, w') := networkFirstStrategy net request w in
            (RespondWith r, w').

(** *** message *)
Definition has_type (data : option MessageData) (type : string) : bool :=
  match data with
  | Some d => match msg_type d with
              | Some t => String.eqb t type
              | None => false
              end
  | None => false
  end.

Definition message_listener (data : option MessageData) : Task unit :=
  (if has_type data "SKIP_WAITING" then skipWaiting else ret tt) ;;;
  if has_type data "CLEAR_CACHE"
  then cacheNames <- caches_keys ;;
       promise_all (map caches_delete cacheNames) ;;;
       ret tt
  else ret tt.

(** *** sync and periodicsync (placeholders) *)
Definition syncGameStats : Task unit :=
  console_log ["[SW] Syncing game statistics..."].

Definition sync_listener (tag : string) : Task unit :=
  console_log ["[SW] Background sync:"; tag] ;;;
  if String.eqb tag "sync-game-stats" then syncGameStats else ret tt.

Definition checkDailyChallenge : Task unit :=
  console_log ["[SW] Checking for daily challenge..."].

Definition periodicsync_listener (tag : string) : Task unit :=
  if String.eqb tag "daily-challenge" then checkDailyChallenge else ret tt.

(** *** push and notificationclick *)
Definition empty_push : PushData := mkPushData None None None None.

Definition push_body_default : string := "יש לך משחק לא גמור!".
Definition open_title : string := "פתח משחק".
Definition close_title : string := "סגור".

Definition push_notification (payload : option PushData) : Notification :=
  let data := match payload with Some d => d | None => empty_push end in
  let title := js_or (push_title data) "Memory Match" in
  let options :=
    mkOptions (js_or (push_body data) push_body_default)
              (js_or (push_icon data) "./icon-192.png")
              "./icon-192.png"
              [200; 100; 200]
              (Some (js_or (push_url data) "./"))
              [mkAction "open" open_title; mkAction "close" close_title] in
  mkNotification title options.

Definition push_listener (payload : option PushData) : Task unit :=
  console_log ["[SW] Push notification received"] ;;;
  let n := push_notification payload in
  showNotification (notification_title n) (notification_options n).

(** A click carries the notification and the id of the action clicked;
    the id is empty or missing when the body was clicked. *)
Definition notificationclick_listener (notification : Notification)
    (clicked : option string) : Task unit :=
  notification_close ;;;
  if match clicked with Some a => String.eqb a "open" | None => false end
     || negb (truthy clicked)
  then clients_openWindow
         (js_or (opt_data (notification_options notification)) "./")
  else ret tt.

(** ** The worker as a transition system *)

Inductive Event :=
| EvInstall (net : Network)
| EvActivate
| EvFetch (net : Network) (request : Request)
| EvMessage (data : option MessageData)
| EvSync (tag : string)
| EvPush (payload : option PushData)
| EvNotificationClick (notification : Notification) (clicked : option string)
| EvPeriodicSync (tag : string)
| EvSettle (i : nat).

Definition dispatch (w : World) (ev : Event) : World :=
  match ev with
  | EvInstall net => (install_listener net w).2
  | EvActivate => (activate_listener w).2
  | EvFetch net request => (fetch_listener net request w).2
  | EvMessage data => (message_listener data w).2
  | EvSync tag => (sync_listener tag w).2
  | EvPush payload => (push_listener payload w).2
  | EvNotificationClick n clicked => (notificationclick_listener n clicked w).2
  | EvPeriodicSync tag => (periodicsync_listener tag w).2
  | EvSettle i => settle i w
  end.

Definition run (w : World) (evs : list Event) : World :=
  foldl dispatch w evs.

(** A starting point: this version has not been installed yet (its static
    partition does not exist) and no write is in flight.  Partitions of
    other versions and the runtime partition may hold anything. *)
Definition initial (w : World) : Prop :=
  caches w !! CACHE_NAME = None ∧ detached w = [].

Inductive reachable : World → Prop :=
| reachable_initial w : initial w → reachable w
| reachable_step w ev : reachable w → reachable (dispatch w ev).

Definition asset_keys : gset (string * string) :=
  list_to_set (req_key ∘ asset_request <$> STATIC_ASSETS).

End Worker.

(** ** Claims as the specification words them (used for refutation) *)

(** Activation, as specified: every partition that is neither the current
    static one nor the runtime one is gone, the current static partition
    remains, and the runtime partition is as it was. *)
Definition activation_as_specified (w : World) : Prop :=
  let w' := (activate_listener w).2 in
  (∀ name, name ≠ CACHE_NAME → name ≠ RUNTIME_CACHE →
           caches w' !! name = None)
  ∧ is_Some (caches w' !! CACHE_NAME)
  ∧ caches w' !! RUNTIME_CACHE = caches w !! RUNTIME_CACHE.

(** Deleting, in turn, the names of a list that satisfy a test: what a
    [Promise.all] over conditional [caches.delete] calls does to the
    storage. *)
Definition delete_where (P : string → bool) (names : list string)
    (cs : gmap string Cache) : gmap string Cache :=
  foldl (λ acc name, if P name then delete name acc else acc) cs names.

(** The test of the activation sweep. *)
Definition is_old (cacheName : string) : bool :=
  negb (String.eqb cacheName CACHE_NAME)
  && negb (String.eqb cacheName RUNTIME_CACHE).

(** A text between double quotes, written out (no escaping). *)
Definition quoted (s : string) : string :=
  String dquote (s +:+ String dquote "").

(** What [store_all] does inside the partition it writes to. *)
Definition insert_all (entries : list (Request * Response)) (c : Cache)
  : Cache :=
  foldl (λ acc e, <[req_key e.1 := e.2]> acc) c entries.

(** Events that neither rewrite nor delete the static partition. *)
Definition keeps_static (ev : Event) : Prop :=
  match ev with
  | EvInstall _ => False
  | EvMessage data => has_type data "CLEAR_CACHE" = false
  | _ => True
  end.

(** How the static partition may change under such an event: not at all,
    or from absent to empty. *)
Definition static_step (before after : option Cache) : Prop :=
  after = before ∨ (before = None ∧ after = Some ∅).

(** Every write in flight targets the runtime partition, and the static
    partition holds nothing but static assets. *)
Definition storage_invariant (location : string) (w : World) : Prop :=
  Forall (λ p, p.1.1 = RUNTIME_CACHE) (detached w)
  ∧ ∀ c, caches w !! CACHE_NAME = Some c → dom c ⊆ asset_keys location.

(** Offline service of a static asset, as specified: after an install
    that stored [stored] for the asset, and whatever events followed, a
    request for the asset whose fetch throws is answered with [stored]. *)
Definition static_served_as_specified (location : string) (w0 : World)
    (net0 : Network) (evs : list Event) (path : string) (net : Network)
  : Prop :=
  ∀ w1 stored,
    install_listener location net0 w0 = (Fulfilled tt, w1) →
    net0 (asset_request location path) = Some stored →
    net (asset_request location path) = None →
    (fetch_listener net (asset_request location path)
       (run location w1 evs)).1
    = RespondWith (Fulfilled stored).

(** The number of network attempts recorded in a trace. *)
Definition is_network_fetch (e : Effect) : bool :=
  match e with
  | NetworkFetch _ => true
  | _ => false
  end.

Definition network_fetches (tr : list Effect) : nat :=
  length (List.filter is_network_fetch tr).

(** The runtime partition holds responses of status 200 only, and so do
    the writes in flight towards it. *)
Definition runtime_only_200 (w : World) : Prop :=
  (∀ c k r, caches w !! RUNTIME_CACHE = Some c → c !! k = Some r →
            status r = 200)
  ∧ Forall (λ p, p.1.1 = RUNTIME_CACHE → status p.2 = 200) (detached w).

(** The protocols of the requests a browser hands to a worker's fetch
    listener.  The worker is consulted for http and https requests (the
    Fetch standard consults it inside HTTP fetch only) and, in some
    browsers, for requests of extension schemes such as
    chrome-extension: or moz-extension:, none of which begins with the
    characters "http". *)
Definition dispatched_protocol (p : string) : Prop :=
  p = "http:" ∨ p = "https:" ∨ String.prefix "http" p = false.

(** Sample data for the closed examples. *)
Definition fresh : World := mkWorld ∅ [] [].
Definition sample_location : string := "https://example.org/memory-match/".
Definition page (content : string) : Response := mkResponse 200 "OK" [] content.
Definition online (content : string) : Network :=
  λ request, Some (page (content +:+ url request)).
Definition offline : Network := λ _, None.
Definition sample_request : Request :=
  mkRequest "GET" "https://example.org/memory-match/index.html".
Definition clear_cache : option MessageData :=
  Some (mkMessageData (Some "CLEAR_CACHE")).

(** * Properties *)

(** ** The cache storage *)

Section Storage.

Implicit Types (cs : gmap string Cache) (w : World) (name : string).

Lemma lookup_open_partition name n cs :
  open_partition n cs !! name
  = if decide (n = name) then Some (default ∅ (cs !! n)) else cs !! name.
Proof.
  unfold open_partition. destruct (cs !! n) as [c|] eqn:E.
  - case_decide; subst; simpl; auto.
  - rewrite lookup_insert. case_decide; subst; auto.
Qed.

Lemma lookup_in_open_partition name n request cs :
  lookup_in name request (open_partition n cs) = lookup_in name request cs.
Proof.
  unfold lookup_in. rewrite lookup_open_partition.
  case_decide; subst; auto.
  destruct (cs !! name); simpl; auto.
Qed.

Lemma lookup_delete_where P names : ∀ cs name,
  delete_where P names cs !! name
  = if P name && bool_decide (name ∈ names) then None else cs !! name.
Proof.
  unfold delete_where.
  induction names as [|n names IH]; intros cs name; simpl.
  - rewrite andb_false_r. reflexivity.
  - rewrite IH. destruct (P name) eqn:HP; simpl.
    + destruct (decide (name = n)) as [->|Hne].
      * rewrite HP, lookup_delete_eq.
        rewrite (bool_decide_eq_true_2 (n ∈ n :: names)) by left.
        by case_bool_decide.
      * assert (bool_decide (name ∈ n :: names) = bool_decide (name ∈ names))
          as -> by (apply bool_decide_ext; rewrite elem_of_cons; tauto).
        case_bool_decide; auto.
        destruct (P n); auto. by apply lookup_delete_ne.
    + destruct (P n) eqn:HPn; auto.
      apply lookup_delete_ne. intros ->. congruence.
Qed.

Lemma elem_of_keys cs name :
  name ∈ (map_to_list cs).*1 ↔ is_Some (cs !! name).
Proof.
  rewrite list_elem_of_fmap. split.
  - intros [[k c] [-> Hin]]. apply elem_of_map_to_list in Hin. eauto.
  - intros [c Hc]. exists (name, c). split; auto.
    by apply elem_of_map_to_list.
Qed.

Lemma delete_where_keys P cs name :
  delete_where P (map_to_list cs).*1 cs !! name
  = if P name then None else cs !! name.
Proof.
  rewrite lookup_delete_where. destruct (P name); simpl; auto.
  case_bool_decide as Hin; auto.
  rewrite elem_of_keys in Hin. by apply eq_None_not_Some.
Qed.

End Storage.

(** ** Running the handlers *)

(** Unfolds the monad and the browser services, and nothing else. *)
Ltac run_task :=
  cbv beta iota zeta delta
    [await ret throw try_catch emit console_log caches_open caches_keys
     caches_delete cache_match cache_put_detached fetch skipWaiting
     clients_claim showNotification notification_close clients_openWindow
     caches detached trace].

Section Handlers.

Implicit Types (w : World) (name : string).

Lemma promise_all_delete_if_old names : ∀ w,
  ∃ vs tr,
    promise_all (map delete_if_old names) w
    = (Fulfilled vs,
       mkWorld (delete_where is_old names (caches w)) (detached w)
               (trace w ++ tr)).
Proof.
  induction names as [|n names IH]; intros [cs ds tr]; simpl.
  - exists [], []. unfold ret. by rewrite app_nil_r.
  - unfold await at 1, delete_if_old at 1. fold (is_old n).
    unfold delete_where. simpl. fold (delete_where is_old names).
    destruct (is_old n); simpl.
    + destruct (IH (mkWorld (delete n cs) ds
                      (tr ++ [ConsoleLog ["[SW] Deleting old cache:"; n]]
                          ++ [CachesDelete n]))) as (vs & tr' & E).
      simpl in E. unfold await, console_log, emit, caches_delete, ret. simpl.
      rewrite <- !app_assoc. simpl in *. rewrite E.
      eexists _, _. rewrite <- app_assoc. reflexivity.
    + destruct (IH (mkWorld cs ds tr)) as (vs & tr' & E). simpl in E.
      unfold await, ret. simpl. rewrite E. eexists _, _. reflexivity.
Qed.

Lemma promise_all_caches_delete names : ∀ w,
  ∃ vs,
    promise_all (map caches_delete names) w
    = (Fulfilled vs,
       mkWorld (delete_where (λ _, true) names (caches w)) (detached w)
               (trace w ++ (CachesDelete <$> names))).
Proof.
  induction names as [|n names IH]; intros [cs ds tr]; simpl.
  - exists []. unfold ret. by rewrite app_nil_r.
  - unfold await at 1, caches_delete at 1. simpl.
    destruct (IH (mkWorld (delete n cs) ds (tr ++ [CachesDelete n])))
      as (vs & E).
    simpl in E. unfold await, ret. rewrite E. simpl.
    eexists. rewrite <- app_assoc. reflexivity.
Qed.

End Handlers.

(** ** Activation and clearing *)

Section Sweeps.

Implicit Types (w : World) (name : string).

Lemma is_old_false_iff name :
  is_old name = false ↔ name = CACHE_NAME ∨ name = RUNTIME_CACHE.
Proof.
  unfold is_old. rewrite andb_false_iff, !negb_false_iff, !String.eqb_eq.
  reflexivity.
Qed.

Lemma activate_listener_run w :
  ∃ tr,
    activate_listener w
    = (Fulfilled tt,
       mkWorld (delete_where is_old (map_to_list (caches w)).*1 (caches w))
               (detached w) (trace w ++ tr ++ [ClientsClaim])).
Proof.
  destruct w as [cs ds tr]. unfold activate_listener. run_task.
  match goal with
  | |- context [promise_all _ ?w0] =>
      destruct (promise_all_delete_if_old (map_to_list cs).*1 w0)
        as (vs & tr' & E)
  end.
  rewrite E. run_task.
  exists ([ConsoleLog ["[SW] Activating Service Worker v2.3.0..."]; CachesKeys]
            ++ tr' ++ [ConsoleLog ["[SW] Activation complete"]]).
  rewrite <- !app_assoc. reflexivity.
Qed.

Lemma message_listener_clear w :
  message_listener clear_cache w
  = (Fulfilled tt,
     mkWorld ∅ (detached w)
             (trace w ++ CachesKeys
                :: (CachesDelete <$> (map_to_list (caches w)).*1))).
Proof.
  destruct w as [cs ds tr]. unfold message_listener.
  change (has_type clear_cache "SKIP_WAITING") with false.
  change (has_type clear_cache "CLEAR_CACHE") with true.
  cbv beta iota delta [await ret caches_keys caches detached trace].
  match goal with
  | |- context [promise_all _ ?w0] =>
      destruct (promise_all_caches_delete (map_to_list cs).*1 w0) as (vs & E)
  end.
  rewrite E. run_task. f_equal.
  rewrite <- app_assoc. f_equal.
  apply map_eq. intros name. by rewrite delete_where_keys, lookup_empty.
Qed.

(** C5, amended.  The activate handler fulfils; afterwards every partition
    whose name is neither the current static name nor the runtime name is
    absent, the current static partition and the runtime partition are
    each exactly as they were before (present with the same entries, or
    absent: activation creates neither), and the handler ends by claiming
    the open clients. *)
Theorem activate_sweeps_stale_partitions (w : World) :
  ∃ w', activate_listener w = (Fulfilled tt, w')
        ∧ (∀ name, name ≠ CACHE_NAME → name ≠ RUNTIME_CACHE →
                   caches w' !! name = None)
        ∧ caches w' !! CACHE_NAME = caches w !! CACHE_NAME
        ∧ caches w' !! RUNTIME_CACHE = caches w !! RUNTIME_CACHE
        ∧ detached w' = detached w
        ∧ last (trace w') = Some ClientsClaim.
Proof.
  destruct (activate_listener_run w) as [tr E]. rewrite E.
  eexists. split; [reflexivity|]. run_task.
  repeat split.
  - intros name H1 H2. rewrite delete_where_keys.
    destruct (is_old name) eqn:Ho; auto.
    apply is_old_false_iff in Ho. tauto.
  - by rewrite delete_where_keys.
  - by rewrite delete_where_keys.
  - by rewrite !app_assoc, last_snoc.
Qed.

(** C5 as stated fails: when the current static partition is missing at
    activation (here: deleted by a CLEAR_CACHE message received between
    install and activate), none remains afterwards. *)
Lemma activate_does_not_restore_static :
  ¬ activation_as_specified
      (run sample_location fresh [EvInstall (online "v1:"); EvMessage clear_cache]).
Proof.
  unfold activation_as_specified. intros (_ & [c Hc] & _).
  vm_compute in Hc. discriminate Hc.
Qed.

(** C7.  Handling CLEAR_CACHE fulfils and leaves no partition at all,
    whatever the partitions were; handling it a second time right after
    leaves the same (empty) storage. *)
Theorem clear_cache_idempotent (w : World) :
  ∃ w1 w2,
    message_listener clear_cache w = (Fulfilled tt, w1)
    ∧ caches w1 = ∅
    ∧ message_listener clear_cache w1 = (Fulfilled tt, w2)
    ∧ caches w2 = caches w1.
Proof.
  eexists _, _. rewrite message_listener_clear. split; [reflexivity|].
  run_task. split; [reflexivity|].
  rewrite message_listener_clear. split; reflexivity.
Qed.

End Sweeps.

(** ** Fetch interception *)

Section Interception.

Implicit Types (w : World) (request : Request) (net : Network).

Lemma networkFirstStrategy_online net request response w :
  net request = Some response →
  networkFirstStrategy net request w
  = (Fulfilled response,
     mkWorld (open_partition RUNTIME_CACHE (caches w))
       (detached w ++ (if status response =? 200
                       then [(RUNTIME_CACHE, request, response)] else []))
       (trace w ++ [CachesOpen RUNTIME_CACHE; NetworkFetch request]
          ++ (if status response =? 200
              then [CachePut RUNTIME_CACHE request response] else []))).
Proof.
  intros Hnet. destruct w as [cs ds tr].
  unfold networkFirstStrategy. run_task. rewrite Hnet. run_task.
  destruct (status response =? 200); run_task;
    rewrite <- ?app_assoc, ?app_nil_r; reflexivity.
Qed.

Lemma networkFirstStrategy_offline net request w :
  net request = None →
  networkFirstStrategy net request w
  = match lookup_in RUNTIME_CACHE request (caches w) with
    | Some cached =>
        (Fulfilled cached,
         mkWorld (open_partition RUNTIME_CACHE (caches w)) (detached w)
           (trace w ++ [CachesOpen RUNTIME_CACHE; NetworkFetch request;
                        ConsoleLog ["[SW] Network failed, trying cache for:";
                                    url request];
                        CacheMatch RUNTIME_CACHE request]))
    | None =>
        (Fulfilled (default offline_response
                      (lookup_in CACHE_NAME request (caches w))),
         mkWorld (open_partition CACHE_NAME
                    (open_partition RUNTIME_CACHE (caches w)))
           (detached w)
           (trace w ++ [CachesOpen RUNTIME_CACHE; NetworkFetch request;
                        ConsoleLog ["[SW] Network failed, trying cache for:";
                                    url request];
                        CacheMatch RUNTIME_CACHE request;
                        CachesOpen CACHE_NAME;
                        CacheMatch CACHE_NAME request]))
    end.
Proof.
  intros Hnet. destruct w as [cs ds tr].
  unfold networkFirstStrategy. run_task. rewrite Hnet. run_task.
  rewrite lookup_in_open_partition.
  destruct (lookup_in RUNTIME_CACHE request cs) as [cached|].
  - rewrite <- !app_assoc. reflexivity.
  - rewrite !lookup_in_open_partition.
    destruct (lookup_in CACHE_NAME request cs) as [stored|]; simpl;
      rewrite <- !app_assoc; reflexivity.
Qed.

Lemma fetch_listener_intercepts net request w :
  method request = "GET" →
  String.prefix "http" (protocol (url request)) = true →
  fetch_listener net request w
  = (RespondWith (networkFirstStrategy net request w).1,
     (networkFirstStrategy net request w).2).
Proof.
  intros Hm Hp. unfold fetch_listener. rewrite Hm, Hp.
  change (negb ("GET" =? "GET")%string) with false.
  cbv beta iota delta [negb].
  by destruct (networkFirstStrategy net request w).
Qed.

(** Requests that are not GET are left alone: nothing is called, nothing
    changes. *)
Lemma fetch_listener_skips_non_get net request w :
  method request ≠ "GET" → fetch_listener net request w = (PassThrough, w).
Proof.
  intros Hm. unfold fetch_listener.
  apply String.eqb_neq in Hm. by rewrite Hm.
Qed.

(** So are requests whose protocol does not begin with the four
    characters "http". *)
Lemma fetch_listener_skips_other_protocols net request w :
  String.prefix "http" (protocol (url request)) = false →
  fetch_listener net request w = (PassThrough, w).
Proof.
  intros Hp. unfold fetch_listener. rewrite Hp.
  by destruct (negb _).
Qed.

Lemma settle_last cs ds tr name request response :
  settle (length ds) (mkWorld cs (ds ++ [(name, request, response)]) tr)
  = mkWorld (store name request response cs) ds tr.
Proof.
  unfold settle. cbv beta iota delta [detached caches trace].
  rewrite list_lookup_middle by reflexivity. f_equal.
  induction ds as [|d ds IH]; simpl; [reflexivity|].
  f_equal. exact IH.
Qed.

Lemma lookup_in_store name request response cs :
  is_Some (cs !! name) →
  lookup_in name request (store name request response cs) = Some response.
Proof.
  intros [c Hc]. unfold lookup_in, store.
  rewrite lookup_alter_eq, Hc. simpl. apply lookup_insert_eq.
Qed.

Lemma open_partition_is_Some name cs : is_Some (open_partition name cs !! name).
Proof. rewrite lookup_open_partition. rewrite decide_True by reflexivity. eauto. Qed.

Lemma fetch_listener_offline net request w :
  method request = "GET" →
  String.prefix "http" (protocol (url request)) = true →
  net request = None →
  ∃ w',
    fetch_listener net request w
    = (RespondWith
         (Fulfilled
            (default
               (default offline_response
                  (lookup_in CACHE_NAME request (caches w)))
               (lookup_in RUNTIME_CACHE request (caches w)))), w').
Proof.
  intros Hm Hp Hnet.
  rewrite (fetch_listener_intercepts _ _ _ Hm Hp).
  rewrite (networkFirstStrategy_offline _ _ _ Hnet).
  destruct (lookup_in RUNTIME_CACHE request (caches w));
    eexists; reflexivity.
Qed.

(** C1.  A GET request over http(s) whose fetch throws is answered, and
    answered with a fulfilled promise: with the runtime partition's match
    when there is one, otherwise with the static partition's match when
    there is one, otherwise with the synthesized 503 response.  The calls
    are made in that order: the static partition is opened and consulted
    only after the runtime partition had no match. *)
Theorem offline_fallback_chain net request w :
  method request = "GET" →
  String.prefix "http" (protocol (url request)) = true →
  net request = None →
  ∃ w',
    fetch_listener net request w
    = (RespondWith
         (Fulfilled
            match lookup_in RUNTIME_CACHE request (caches w) with
            | Some cached => cached
            | None =>
                match lookup_in CACHE_NAME request (caches w) with
                | Some stored => stored
                | None => offline_response
                end
            end), w')
    ∧ trace w'
      = trace w
        ++ [CachesOpen RUNTIME_CACHE; NetworkFetch request;
            ConsoleLog ["[SW] Network failed, trying cache for:"; url request];
            CacheMatch RUNTIME_CACHE request]
        ++ match lookup_in RUNTIME_CACHE request (caches w) with
           | Some _ => []
           | None => [CachesOpen CACHE_NAME; CacheMatch CACHE_NAME request]
           end.
Proof.
  intros Hm Hp Hnet.
  rewrite (fetch_listener_intercepts _ _ _ Hm Hp).
  rewrite (networkFirstStrategy_offline _ _ _ Hnet).
  destruct (lookup_in RUNTIME_CACHE request (caches w)) as [cached|].
  - eexists. split; reflexivity.
  - destruct (lookup_in CACHE_NAME request (caches w)) as [stored|];
      eexists; split; reflexivity.
Qed.

Lemma offline_fallback_chain_witness :
  ∃ w',
    fetch_listener offline sample_request fresh
    = (RespondWith (Fulfilled offline_response), w')
    ∧ trace w'
      = [CachesOpen RUNTIME_CACHE; NetworkFetch sample_request;
         ConsoleLog ["[SW] Network failed, trying cache for:";
                     url sample_request];
         CacheMatch RUNTIME_CACHE sample_request;
         CachesOpen CACHE_NAME; CacheMatch CACHE_NAME sample_request].
Proof.
  apply (offline_fallback_chain offline sample_request fresh); reflexivity.
Defined.

(** C2.  A GET request over http(s) whose fetch succeeds is answered with
    the network response itself.  No partition entry is read or changed
    while the handler runs (the runtime partition is opened, hence created
    empty when absent).  When the status is 200, exactly one write is
    issued without being awaited, that of the response under the request
    in the runtime partition, and once it lands the runtime partition
    answers the request with that response; for any other status no write
    is issued at all. *)
Theorem online_response_cached_iff_200 net request response w :
  method request = "GET" →
  String.prefix "http" (protocol (url request)) = true →
  net request = Some response →
  ∃ w',
    fetch_listener net request w = (RespondWith (Fulfilled response), w')
    ∧ caches w' = open_partition RUNTIME_CACHE (caches w)
    ∧ (∀ name request', lookup_in name request' (caches w')
                        = lookup_in name request' (caches w))
    ∧ (status response = 200 →
         detached w' = detached w ++ [(RUNTIME_CACHE, request, response)]
         ∧ trace w' = trace w ++ [CachesOpen RUNTIME_CACHE;
                                  NetworkFetch request;
                                  CachePut RUNTIME_CACHE request response]
         ∧ lookup_in RUNTIME_CACHE request
             (caches (settle (length (detached w)) w')) = Some response)
    ∧ (status response ≠ 200 →
         detached w' = detached w
         ∧ trace w' = trace w ++ [CachesOpen RUNTIME_CACHE;
                                  NetworkFetch request]).
Proof.
  intros Hm Hp Hnet.
  rewrite (fetch_listener_intercepts _ _ _ Hm Hp).
  rewrite (networkFirstStrategy_online _ _ _ _ Hnet).
  destruct w as [cs ds tr]. cbn [fst snd].
  eexists. split; [reflexivity|]. run_task.
  split; [reflexivity|].
  split; [intros; apply lookup_in_open_partition|].
  split.
  - intros H200. apply Z.eqb_eq in H200. rewrite H200.
    split; [reflexivity|]. split; [reflexivity|].
    run_task. rewrite settle_last. run_task.
    apply lookup_in_store, open_partition_is_Some.
  - intros Hne. apply Z.eqb_neq in Hne. rewrite Hne.
    by rewrite !app_nil_r.
Qed.

Lemma online_response_cached_iff_200_witness :
  ∃ w',
    fetch_listener (online "v2:") sample_request fresh
    = (RespondWith (Fulfilled (page "v2:https://example.org/memory-match/index.html")), w')
    ∧ lookup_in RUNTIME_CACHE sample_request (caches (settle 0 w'))
      = Some (page "v2:https://example.org/memory-match/index.html").
Proof.
  destruct (online_response_cached_iff_200 (online "v2:") sample_request
              (page "v2:https://example.org/memory-match/index.html") fresh)
    as (w' & E & _ & _ & H200 & _); try reflexivity.
  exists w'. split; [exact E|]. apply H200. reflexivity.
Defined.

(** C3.  When the fetch of a GET request over http(s) throws and neither
    the runtime nor the static partition has a match, the answer has
    status 503, status text "Service Unavailable", the single header
    Content-Type: application/json, and as body the JSON text of an object
    with the two members "error", equal to "Offline and resource not
    cached", and "message", equal to the worker's (Hebrew) message. *)
Theorem offline_response_wire_format net request w :
  method request = "GET" →
  String.prefix "http" (protocol (url request)) = true →
  net request = None →
  lookup_in RUNTIME_CACHE request (caches w) = None →
  lookup_in CACHE_NAME request (caches w) = None →
  ∃ response w',
    fetch_listener net request w = (RespondWith (Fulfilled response), w')
    ∧ status response = 503
    ∧ statusText response = "Service Unavailable"
    ∧ headers response = [("Content-Type", "application/json")]
    ∧ body response
      = "{" +:+ quoted "error" +:+ ":"
            +:+ quoted "Offline and resource not cached" +:+ ","
            +:+ quoted "message" +:+ ":" +:+ quoted offline_message +:+ "}".
Proof.
  intros Hm Hp Hnet Hrt Hst.
  destruct (fetch_listener_offline net request w Hm Hp Hnet) as (w' & E).
  rewrite Hrt, Hst in E.
  exists offline_response, w'. split; [exact E|].
  repeat split; vm_compute; reflexivity.
Qed.

Lemma offline_response_wire_format_witness :
  ∃ response w',
    fetch_listener offline sample_request fresh
    = (RespondWith (Fulfilled response), w')
    ∧ status response = 503
    ∧ statusText response = "Service Unavailable"
    ∧ headers response = [("Content-Type", "application/json")]
    ∧ body response
      = "{" +:+ quoted "error" +:+ ":"
            +:+ quoted "Offline and resource not cached" +:+ ","
            +:+ quoted "message" +:+ ":" +:+ quoted offline_message +:+ "}".
Proof.
  apply (offline_response_wire_format offline sample_request fresh);
    reflexivity.
Defined.

(** C4.  Among the requests a browser hands to the listener, every one
    whose method is not GET, and every one whose protocol is neither http
    nor https, is declined: the listener returns without calling
    [respondWith], having made no call to the cache storage or to any
    other service, and leaves the whole state as it was.  (The method test
    needs no assumption on the protocol.) *)
Theorem fetch_listener_declines_non_get_or_non_http net request w :
  (method request ≠ "GET" →
   fetch_listener net request w = (PassThrough, w))
  ∧ (dispatched_protocol (protocol (url request)) →
     protocol (url request) ≠ "http:" →
     protocol (url request) ≠ "https:" →
     fetch_listener net request w = (PassThrough, w)).
Proof.
  split.
  - apply fetch_listener_skips_non_get.
  - intros [Hp | [Hp | Hp]] Hhttp Hhttps; [contradiction..|].
    by apply fetch_listener_skips_other_protocols.
Qed.

Lemma fetch_listener_declines_non_get_or_non_http_witness :
  fetch_listener (online "v1:")
    (mkRequest "POST" "https://example.org/memory-match/score") fresh
  = (PassThrough, fresh)
  ∧ fetch_listener (online "v1:")
      (mkRequest "GET" "chrome-extension://abcdefgh/content.js") fresh
    = (PassThrough, fresh).
Proof.
  split.
  - apply (proj1 (fetch_listener_declines_non_get_or_non_http (online "v1:")
             (mkRequest "POST" "https://example.org/memory-match/score")
             fresh)).
    vm_compute. discriminate.
  - apply (proj2 (fetch_listener_declines_non_get_or_non_http (online "v1:")
             (mkRequest "GET" "chrome-extension://abcdefgh/content.js")
             fresh)).
    + right; right. reflexivity.
    + vm_compute. discriminate.
    + vm_compute. discriminate.
Defined.

Lemma extension_protocols_dispatched :
  Forall dispatched_protocol
    ["http:"; "https:"; "chrome-extension:"; "moz-extension:";
     "safari-web-extension:"].
Proof.
  apply Forall_cons; split; [by left|].
  apply Forall_cons; split; [by right; left|].
  repeat (apply Forall_cons; split; [by right; right|]).
  constructor.
Qed.

(** The assumption on the protocol is needed: the guard tests the first
    four characters only, so a protocol such as "httpx:", which no browser
    hands to the listener, would pass it. *)
Lemma fetch_listener_intercepts_httpx :
  protocol "httpx://example.org/data" = "httpx:"
  ∧ ∃ w',
      fetch_listener offline (mkRequest "GET" "httpx://example.org/data") fresh
      = (RespondWith (Fulfilled offline_response), w')
      ∧ caches w' !! RUNTIME_CACHE = Some ∅
      ∧ caches w' !! CACHE_NAME = Some ∅
      ∧ CacheMatch RUNTIME_CACHE (mkRequest "GET" "httpx://example.org/data")
        ∈ trace w'.
Proof.
  split; [reflexivity|].
  destruct (fetch_listener_offline offline
              (mkRequest "GET" "httpx://example.org/data") fresh)
    as (w' & E); try reflexivity.
  exists w'. split; [exact E|].
  assert (w' = (fetch_listener offline
                  (mkRequest "GET" "httpx://example.org/data") fresh).2)
    as -> by (by rewrite E).
  repeat split; try (vm_compute; reflexivity).
  vm_compute. do 3 apply list_elem_of_further. apply list_elem_of_here.
Qed.

End Interception.

(** ** Notifications *)

Section Notifications.

Implicit Types (w : World) (payload : option PushData).

Lemma push_listener_run payload w :
  push_listener payload w
  = (Fulfilled tt,
     mkWorld (caches w) (detached w)
       (trace w ++ [ConsoleLog ["[SW] Push notification received"];
                    ShowNotification
                      (notification_title (push_notification payload))
                      (notification_options (push_notification payload))])).
Proof.
  destruct w as [cs ds tr]. unfold push_listener. run_task.
  by rewrite <- app_assoc.
Qed.

Lemma notificationclick_listener_run notification clicked w :
  notificationclick_listener notification clicked w
  = (Fulfilled tt,
     mkWorld (caches w) (detached w)
       (trace w ++ NotificationClose
          :: (if match clicked with
                 | Some a => String.eqb a "open"
                 | None => false
                 end || negb (truthy clicked)
              then [OpenWindow
                      (js_or (opt_data (notification_options notification))
                             "./")]
              else []))).
Proof.
  destruct w as [cs ds tr]. unfold notificationclick_listener. run_task.
  destruct (_ || _); run_task; by rewrite <- ?app_assoc.
Qed.

Lemma js_or_truthy s default : s ≠ "" → js_or (Some s) default = s.
Proof. intros Hs. unfold js_or. apply String.eqb_neq in Hs. by rewrite Hs. Qed.

Lemma js_or_js_or v default default' :
  js_or (Some (js_or v default)) default' = js_or v default ∨ default = "".
Proof.
  unfold js_or at 1.
  destruct (String.eqb (js_or v default) "") eqn:E; [|by left].
  apply String.eqb_eq in E. unfold js_or in E.
  destruct v as [s|]; [|by right].
  destruct (String.eqb s "") eqn:Es; [by right|].
  apply String.eqb_neq in Es. congruence.
Qed.

(** C9.  A push event shows one notification.  Its title is the payload's
    title, or "Memory Match" when the payload has none (no payload, no
    title, or an empty one); it has a body text, an icon, the vibration
    pattern 200, 100, 200 and exactly the two actions "open" and "close".
    A later click on that notification with action "open", or with no
    action (missing or empty), closes it and opens a window at the
    payload's url, or at "./" when the payload has none (no payload, no
    url, or an empty one). *)
Theorem push_then_open payload clicked w w2 :
  clicked = Some "open" ∨ clicked = None ∨ clicked = Some "" →
  ∃ title options target,
    push_listener payload w
    = (Fulfilled tt,
       mkWorld (caches w) (detached w)
         (trace w ++ [ConsoleLog ["[SW] Push notification received"];
                      ShowNotification title options]))
    ∧ (∀ t, payload ≫= push_title = Some t → t ≠ "" → title = t)
    ∧ (payload ≫= push_title = None ∨ payload ≫= push_title = Some "" →
       title = "Memory Match")
    ∧ (∀ b, payload ≫= push_body = Some b → b ≠ "" → opt_body options = b)
    ∧ (payload ≫= push_body = None ∨ payload ≫= push_body = Some "" →
       opt_body options = push_body_default)
    ∧ (∀ i, payload ≫= push_icon = Some i → i ≠ "" → opt_icon options = i)
    ∧ (payload ≫= push_icon = None ∨ payload ≫= push_icon = Some "" →
       opt_icon options = "./icon-192.png")
    ∧ opt_vibrate options = [200; 100; 200]
    ∧ action <$> opt_actions options = ["open"; "close"]
    ∧ notificationclick_listener (mkNotification title options) clicked w2
      = (Fulfilled tt,
         mkWorld (caches w2) (detached w2)
           (trace w2 ++ [NotificationClose; OpenWindow target]))
    ∧ (∀ u, payload ≫= push_url = Some u → u ≠ "" → target = u)
    ∧ (payload ≫= push_url = None ∨ payload ≫= push_url = Some "" →
       target = "./").
Proof.
  intros Hclick.
  exists (notification_title (push_notification payload)),
         (notification_options (push_notification payload)),
         (js_or (payload ≫= push_url) "./").
  split; [apply push_listener_run|].
  assert (∀ (f : PushData → option string) d,
            (∀ t, payload ≫= f = Some t → t ≠ "" →
                  js_or (f (default empty_push payload)) d = t)
            ∧ (payload ≫= f = None ∨ payload ≫= f = Some "" →
               js_or (f (default empty_push payload)) d = d)
            ∨ f empty_push ≠ None) as Hor.
  { intros f d. destruct (f empty_push) eqn:Ef; [by right|left].
    assert (f (default empty_push payload) = payload ≫= f) as ->
      by (destruct payload; simpl; auto).
    split.
    - intros t -> Ht. by apply js_or_truthy.
    - by intros [-> | ->]. }
  assert (∀ f, f empty_push = None →
               js_or (f (default empty_push payload)) "./"
               = js_or (payload ≫= f) "./") as Hurl.
  { intros f Hf. destruct payload; simpl; [reflexivity|]. by rewrite Hf. }
  repeat split.
  - destruct (Hor push_title "Memory Match") as [[H _]|]; [|done].
    destruct payload; apply H.
  - destruct (Hor push_title "Memory Match") as [[_ H]|]; [|done].
    destruct payload; apply H.
  - destruct (Hor push_body push_body_default) as [[H _]|]; [|done].
    destruct payload; apply H.
  - destruct (Hor push_body push_body_default) as [[_ H]|]; [|done].
    destruct payload; apply H.
  - destruct (Hor push_icon "./icon-192.png") as [[H _]|]; [|done].
    destruct payload; apply H.
  - destruct (Hor push_icon "./icon-192.png") as [[_ H]|]; [|done].
    destruct payload; apply H.
  - rewrite notificationclick_listener_run.
    assert ((match clicked with
             | Some a => String.eqb a "open"
             | None => false
             end || negb (truthy clicked)) = true) as ->
      by (by destruct Hclick as [-> | [-> | ->]]).
    do 4 f_equal.
    change (opt_data (notification_options
              (mkNotification (notification_title (push_notification payload))
                 (notification_options (push_notification payload)))))
      with (Some (js_or (push_url (default empty_push payload)) "./")).
    rewrite (Hurl push_url eq_refl).
    destruct (js_or_js_or (payload ≫= push_url) "./" "./") as [-> | ?];
      [reflexivity | discriminate].
  - intros u -> Hu. by apply js_or_truthy.
  - by intros [-> | ->].
Qed.

Lemma push_then_open_witness :
  ∃ title options target,
    push_listener (Some (mkPushData (Some "Hi") None None (Some "./play")))
      fresh
    = (Fulfilled tt,
       mkWorld ∅ []
         [ConsoleLog ["[SW] Push notification received"];
          ShowNotification title options])
    ∧ title = "Hi"
    ∧ opt_body options = push_body_default
    ∧ action <$> opt_actions options = ["open"; "close"]
    ∧ notificationclick_listener (mkNotification title options)
        (Some "open") fresh
      = (Fulfilled tt,
         mkWorld ∅ [] [NotificationClose; OpenWindow target])
    ∧ target = "./play".
Proof.
  destruct (push_then_open
              (Some (mkPushData (Some "Hi") None None (Some "./play")))
              (Some "open") fresh fresh)
    as (title & options & target & E1 & Ht & _ & _ & Hb & _ & _ & _ & Ha
        & E2 & Hu & _); [by left|].
  exists title, options, target.
  split; [exact E1|]. split; [by apply Ht|].
  split; [apply Hb; by left|]. split; [exact Ha|].
  split; [exact E2|]. by apply Hu.
Defined.

(** C10.  A notification click always closes the notification first.  A
    window is opened next exactly when the action is "open" or there is
    none (missing or empty); for every other action id nothing follows the
    close: no window is opened, no partition and no pending write is
    touched. *)
Theorem notificationclick_closes_then_maybe_opens
    (notification : Notification) (clicked : option string) (w : World) :
  ∃ rest,
    notificationclick_listener notification clicked w
    = (Fulfilled tt,
       mkWorld (caches w) (detached w) (trace w ++ NotificationClose :: rest))
    ∧ (clicked = Some "open" ∨ clicked = None ∨ clicked = Some "" →
       ∃ target, rest = [OpenWindow target])
    ∧ (∀ a, clicked = Some a → a ≠ "open" → a ≠ "" → rest = []).
Proof.
  eexists. split; [apply notificationclick_listener_run|]. split.
  - intros [-> | [-> | ->]]; eexists; reflexivity.
  - intros a -> Ho He. apply String.eqb_neq in Ho, He.
    unfold truthy. by rewrite Ho, He.
Qed.

End Notifications.

(** ** Installation and the static partition *)

Section StaticPartition.

Variable location : string.

Implicit Types (w : World) (net : Network) (c : Cache)
  (entries : list (Request * Response)) (cs : gmap string Cache).

Lemma lookup_store_all name entries : ∀ cs n,
  store_all name entries cs !! n
  = if decide (n = name) then insert_all entries <$> cs !! name
    else cs !! n.
Proof.
  unfold store_all, insert_all.
  induction entries as [|e entries IH]; intros cs n; simpl.
  - case_decide; subst; by destruct (cs !! _).
  - rewrite IH. unfold store.
    case_decide; subst.
    + rewrite lookup_alter_eq. by destruct (cs !! name).
    + by rewrite lookup_alter_ne.
Qed.

Lemma dom_insert_all entries : ∀ c,
  dom (insert_all entries c)
  = dom c ∪ list_to_set (req_key ∘ fst <$> entries).
Proof.
  unfold insert_all.
  induction entries as [|e entries IH]; intros c.
  - cbn [foldl]. by rewrite fmap_nil, list_to_set_nil, union_empty_r_L.
  - cbn [foldl]. rewrite IH, dom_insert_L, fmap_cons, list_to_set_cons.
    rewrite (comm_L (∪) {[req_key e.1]} (dom c)).
    by rewrite (assoc_L (∪)).
Qed.

Lemma lookup_insert_all (f : string * string → option Response) entries :
  Forall (λ e, f (req_key e.1) = Some e.2) entries →
  ∀ c k, insert_all entries c !! k
         = if decide (k ∈ (req_key ∘ fst <$> entries)) then f k else c !! k.
Proof.
  unfold insert_all.
  induction 1 as [|e entries He _ IH]; intros c k.
  - case_decide as Hin; [by apply elem_of_nil in Hin | reflexivity].
  - cbn [foldl]. rewrite IH, fmap_cons.
    destruct (decide (k ∈ (req_key ∘ fst <$> entries))) as [Hin|Hin];
      case_decide as Hin'; rewrite elem_of_cons in Hin'.
    + reflexivity.
    + tauto.
    + destruct Hin' as [->|]; [|tauto]. by rewrite lookup_insert_eq.
    + apply lookup_insert_ne. intros <-. tauto.
Qed.

Lemma fetched_entries net paths entries :
  mapM (fetch_entry location net) paths = Some entries →
  entries.*1 = asset_request location <$> paths
  ∧ Forall (λ e, net e.1 = Some e.2 ∧ addAll_accepts e.2 = true) entries.
Proof.
  intros H. apply mapM_Some_1 in H.
  induction H as [|path e paths entries He _ [IH1 IH2]]; [by split|].
  unfold fetch_entry in He.
  destruct (net (asset_request location path)) as [r|] eqn:Er;
    simpl in He; [|discriminate].
  destruct (addAll_accepts r) eqn:Ea; [|discriminate].
  injection He as <-. simpl. split; [by f_equal|].
  constructor; auto.
Qed.

Lemma entries_keys net entries :
  mapM (fetch_entry location net) STATIC_ASSETS = Some entries →
  list_to_set (req_key ∘ fst <$> entries) = asset_keys location.
Proof.
  intros H. apply fetched_entries in H as [H _].
  unfold asset_keys. by rewrite !list_fmap_compose, H.
Qed.

Lemma install_listener_run net w :
  install_listener location net w
  = match mapM (fetch_entry location net) STATIC_ASSETS with
    | Some entries =>
        (Fulfilled tt,
         mkWorld (store_all CACHE_NAME entries
                    (open_partition CACHE_NAME (caches w)))
           (detached w)
           (trace w ++ [ConsoleLog ["[SW] Installing Service Worker v2.3.0..."];
                        CachesOpen CACHE_NAME;
                        ConsoleLog ["[SW] Caching static assets"];
                        CacheAddAll CACHE_NAME STATIC_ASSETS;
                        ConsoleLog ["[SW] Installation complete"];
                        SkipWaiting]))
    | None =>
        (Rejected "TypeError: Failed to fetch",
         mkWorld (open_partition CACHE_NAME (caches w)) (detached w)
           (trace w ++ [ConsoleLog ["[SW] Installing Service Worker v2.3.0..."];
                        CachesOpen CACHE_NAME;
                        ConsoleLog ["[SW] Caching static assets"];
                        CacheAddAll CACHE_NAME STATIC_ASSETS]))
    end.
Proof.
  destruct w as [cs ds tr]. unfold install_listener, cache_addAll. run_task.
  destruct (mapM _ _); run_task; rewrite <- !app_assoc; reflexivity.
Qed.

Lemma has_type_clear data :
  has_type data "CLEAR_CACHE" = true → data = clear_cache.
Proof.
  unfold has_type. destruct data as [[[t|]]|]; try discriminate.
  intros H. apply String.eqb_eq in H. by subst.
Qed.

Lemma message_listener_storage data w :
  has_type data "CLEAR_CACHE" = false →
  caches (message_listener data w).2 = caches w
  ∧ detached (message_listener data w).2 = detached w.
Proof.
  intros H. destruct w as [cs ds tr]. unfold message_listener. rewrite H.
  destruct (has_type data "SKIP_WAITING"); run_task; by split.
Qed.

Lemma static_step_invariant w w' :
  storage_invariant location w →
  Forall (λ p, p.1.1 = RUNTIME_CACHE) (detached w') →
  static_step (caches w !! CACHE_NAME) (caches w' !! CACHE_NAME) →
  storage_invariant location w'.
Proof.
  intros [_ Hdom] Hd Hstep. split; [exact Hd|].
  intros c Hc. destruct Hstep as [E | [_ E]]; rewrite E in Hc.
  - by apply Hdom.
  - injection Hc as <-. rewrite dom_empty_L. apply empty_subseteq.
Qed.

Lemma dispatch_keeps_static w ev :
  storage_invariant location w →
  keeps_static ev →
  Forall (λ p, p.1.1 = RUNTIME_CACHE) (detached (dispatch location w ev))
  ∧ static_step (caches w !! CACHE_NAME)
                (caches (dispatch location w ev) !! CACHE_NAME).
Proof.
  intros [Hd Hdom] Hev. destruct ev; cbn [dispatch]; cbn [keeps_static] in Hev.
  - contradiction.
  - destruct (activate_listener_run w) as [tr E]. rewrite E.
    cbn [snd caches detached]. split; [exact Hd|left].
    rewrite delete_where_keys. reflexivity.
  - unfold fetch_listener.
    destruct (negb (String.eqb (method request) "GET"));
      [split; [exact Hd | by left]|].
    destruct (negb (String.prefix "http" (protocol (url request))));
      [split; [exact Hd | by left]|].
    destruct (net request) as [response|] eqn:Hnet.
    + rewrite (networkFirstStrategy_online _ _ _ _ Hnet).
      cbn [snd caches detached]. split.
      * apply Forall_app. split; [exact Hd|].
        destruct (status response =? 200); repeat constructor.
      * left. rewrite lookup_open_partition.
        by rewrite decide_False by discriminate.
    + rewrite (networkFirstStrategy_offline _ _ _ Hnet).
      destruct (lookup_in RUNTIME_CACHE request (caches w));
        cbn [snd caches detached]; (split; [exact Hd|]).
      * left. rewrite lookup_open_partition.
        by rewrite decide_False by discriminate.
      * rewrite lookup_open_partition, decide_True by reflexivity.
        rewrite lookup_open_partition, decide_False by discriminate.
        destruct (caches w !! CACHE_NAME); [by left | by right].
  - destruct (message_listener_storage data w Hev) as [-> ->].
    split; [exact Hd | by left].
  - destruct w as [cs ds tr]. unfold sync_listener, syncGameStats.
    destruct (String.eqb tag "sync-game-stats"); run_task;
      (split; [exact Hd | by left]).
  - rewrite push_listener_run. split; [exact Hd | by left].
  - rewrite notificationclick_listener_run. split; [exact Hd | by left].
  - destruct w as [cs ds tr]. unfold periodicsync_listener, checkDailyChallenge.
    destruct (String.eqb tag "daily-challenge"); run_task;
      (split; [exact Hd | by left]).
  - unfold settle.
    destruct (detached w !! i) as [[[name request] response]|] eqn:Ei;
      [|split; [exact Hd | by left]].
    cbn [caches detached]. split; [by apply Forall_delete|left].
    assert (name = RUNTIME_CACHE) as ->
      by exact (proj1 (Forall_lookup _ _) Hd _ _ Ei).
    unfold store. by rewrite lookup_alter_ne by discriminate.
Qed.

Lemma installed_entries net entries c0 :
  mapM (fetch_entry location net) STATIC_ASSETS = Some entries →
  dom c0 ⊆ asset_keys location →
  dom (insert_all entries c0) = asset_keys location
  ∧ ∀ path, path ∈ STATIC_ASSETS →
      insert_all entries c0 !! req_key (asset_request location path)
      = net (asset_request location path)
      ∧ ∃ r, net (asset_request location path) = Some r
             ∧ addAll_accepts r = true.
Proof.
  intros E Hdom. split.
  - rewrite dom_insert_all, (entries_keys _ _ E).
    apply (anti_symm (⊆)); [apply union_least; [exact Hdom | reflexivity]|].
    apply union_subseteq_r.
  - intros path Hpath.
    destruct (fetched_entries _ _ _ E) as [Hfst Hall].
    assert (req_key (asset_request location path)
            ∈ (req_key ∘ fst <$> entries)) as Hin.
    { rewrite list_fmap_compose, Hfst, <- list_fmap_compose.
      apply list_elem_of_fmap. eauto. }
    split.
    + rewrite (lookup_insert_all (λ k, net (mkRequest k.1 k.2))).
      * by rewrite decide_True by exact Hin.
      * eapply Forall_impl; [exact Hall|].
        intros [[m u] r] [Hr _]. exact Hr.
    + assert (asset_request location path ∈ entries.*1) as Hin'.
      { rewrite Hfst. apply list_elem_of_fmap. eauto. }
      apply list_elem_of_fmap in Hin' as ([rq r] & Erq & He).
      simpl in Erq. subst rq. exists r.
      exact (proj1 (Forall_forall _ _) Hall _ He).
Qed.

Lemma install_invariant net w :
  storage_invariant location w →
  storage_invariant location (install_listener location net w).2.
Proof.
  intros [Hd Hdom]. rewrite install_listener_run.
  assert (dom (default ∅ (caches w !! CACHE_NAME)) ⊆ asset_keys location)
    as Hdom0.
  { destruct (caches w !! CACHE_NAME) as [c0|] eqn:E0; simpl.
    - by apply Hdom.
    - rewrite dom_empty_L. apply empty_subseteq. }
  destruct (mapM _ _) as [entries|] eqn:E; cbn [snd];
    (split; [exact Hd|]); cbn [caches]; intros c.
  - rewrite lookup_store_all, decide_True by reflexivity.
    rewrite lookup_open_partition, decide_True by reflexivity.
    simpl. intros [= <-].
    by destruct (installed_entries net entries _ E Hdom0) as [-> _].
  - rewrite lookup_open_partition, decide_True by reflexivity.
    by intros [= <-].
Qed.

Lemma dispatch_invariant w ev :
  storage_invariant location w →
  storage_invariant location (dispatch location w ev).
Proof.
  intros Hinv.
  assert (keeps_static ev → storage_invariant location (dispatch location w ev))
    as Hkeep.
  { intros Hev. destruct (dispatch_keeps_static w ev Hinv Hev).
    by eapply static_step_invariant. }
  destruct ev; try (apply Hkeep; exact I).
  - by apply install_invariant.
  - destruct (has_type data "CLEAR_CACHE") eqn:Ht; [|by apply Hkeep].
    apply has_type_clear in Ht as ->. cbn [dispatch].
    rewrite message_listener_clear. split; [apply Hinv|].
    cbn [snd caches]. intros c. by rewrite lookup_empty.
Qed.

Lemma reachable_invariant w :
  reachable location w → storage_invariant location w.
Proof.
  induction 1 as [w [Hs Hd]|w ev _ IH].
  - split; [rewrite Hd; constructor|]. intros c. by rewrite Hs.
  - by apply dispatch_invariant.
Qed.

Lemma run_keeps_static evs : ∀ w c,
  storage_invariant location w →
  Forall keeps_static evs →
  caches w !! CACHE_NAME = Some c →
  caches (run location w evs) !! CACHE_NAME = Some c.
Proof.
  unfold run.
  induction evs as [|ev evs IH]; intros w c Hinv Hevs Hc; [exact Hc|].
  inversion Hevs as [|? ? Hev Hevs']; subst. simpl.
  apply IH; [by apply dispatch_invariant | exact Hevs' |].
  destruct (dispatch_keeps_static w ev Hinv Hev) as [_ [E | [E _]]];
    congruence.
Qed.

(** C6.  From any state the worker can be in, the install handler opens
    the current static partition and fetches every listed asset.  When
    every fetch succeeds, the handler fulfils, the static partition holds
    exactly the listed entries (one per listed asset, each with the
    response fetched for it, and nothing else), the other partitions are
    as before, and the last thing the handler does is signal skip-waiting.
    When some fetch fails, the handler rejects, nothing is written (the
    storage is as before, the static partition merely opened), and
    skip-waiting is not signalled. *)
Theorem install_all_or_nothing net w :
  reachable location w →
  (Forall (λ path, is_Some (fetch_entry location net path)) STATIC_ASSETS →
   ∃ w' c,
     install_listener location net w = (Fulfilled tt, w')
     ∧ caches w' !! CACHE_NAME = Some c
     ∧ dom c = asset_keys location
     ∧ (∀ path, path ∈ STATIC_ASSETS →
          c !! req_key (asset_request location path)
          = net (asset_request location path))
     ∧ (∀ name, name ≠ CACHE_NAME → caches w' !! name = caches w !! name)
     ∧ last (trace w') = Some SkipWaiting)
  ∧ (Exists (λ path, fetch_entry location net path = None) STATIC_ASSETS →
     ∃ reason w',
       install_listener location net w = (Rejected reason, w')
       ∧ caches w' = open_partition CACHE_NAME (caches w)
       ∧ SkipWaiting ∉ drop (length (trace w)) (trace w')).
Proof.
  intros Hreach. apply reachable_invariant in Hreach as [_ Hdom].
  rewrite install_listener_run. split.
  - intros Hall. apply mapM_is_Some_2 in Hall as [entries E]. rewrite E.
    destruct (installed_entries net entries
                (default ∅ (caches w !! CACHE_NAME)) E) as [Hd Hv].
    { destruct (caches w !! CACHE_NAME) as [c0|] eqn:E0; simpl.
      - by apply Hdom.
      - apply empty_subseteq. }
    eexists _, _. split; [reflexivity|]. cbn [caches trace].
    split; [|split; [exact Hd|split; [|split]]].
    + rewrite lookup_store_all, decide_True by reflexivity.
      rewrite lookup_open_partition, decide_True by reflexivity.
      reflexivity.
    + intros path Hpath. by apply Hv.
    + intros name Hne. rewrite lookup_store_all, decide_False by exact Hne.
      rewrite lookup_open_partition. by rewrite decide_False by congruence.
    + change [ConsoleLog ["[SW] Installing Service Worker v2.3.0..."];
              CachesOpen CACHE_NAME;
              ConsoleLog ["[SW] Caching static assets"];
              CacheAddAll CACHE_NAME STATIC_ASSETS;
              ConsoleLog ["[SW] Installation complete"]; SkipWaiting]
        with ([ConsoleLog ["[SW] Installing Service Worker v2.3.0..."];
               CachesOpen CACHE_NAME;
               ConsoleLog ["[SW] Caching static assets"];
               CacheAddAll CACHE_NAME STATIC_ASSETS;
               ConsoleLog ["[SW] Installation complete"]] ++ [SkipWaiting]).
      by rewrite app_assoc, last_snoc.
  - intros Hex. apply mapM_None_2 in Hex. rewrite Hex.
    eexists _, _. split; [reflexivity|]. cbn [caches trace].
    split; [reflexivity|].
    rewrite drop_app_length. intros Hin.
    repeat (apply elem_of_cons in Hin as [Hin|Hin]; [discriminate|]).
    by apply elem_of_nil in Hin.
Qed.

(** C8, amended.  Take an install that stored [stored] for a listed asset,
    followed by any events other than a new install or a CLEAR_CACHE
    message.  A GET request for that asset whose fetch throws is then
    answered with the runtime partition's entry for it when there is one
    (whatever was cached for it since the install), and otherwise with
    [stored], the very response stored at install time, whose status is in
    200..299. *)
Theorem static_asset_served_offline w0 net0 w1 evs path stored net :
  reachable location w0 →
  install_listener location net0 w0 = (Fulfilled tt, w1) →
  path ∈ STATIC_ASSETS →
  net0 (asset_request location path) = Some stored →
  Forall keeps_static evs →
  String.prefix "http" (protocol (resolve_url location path)) = true →
  net (asset_request location path) = None →
  ∃ w',
    fetch_listener net (asset_request location path) (run location w1 evs)
    = (RespondWith
         (Fulfilled
            match lookup_in RUNTIME_CACHE (asset_request location path)
                    (caches (run location w1 evs)) with
            | Some cached => cached
            | None => stored
            end), w')
    ∧ 200 ≤ status stored ≤ 299.
Proof.
  intros Hreach Hinst Hpath Hnet0 Hevs Hp Hnet.
  apply reachable_invariant in Hreach as Hinv0.
  pose proof (install_invariant net0 w0 Hinv0) as Hinv1.
  rewrite Hinst in Hinv1. cbn [snd] in Hinv1.
  rewrite install_listener_run in Hinst.
  destruct (mapM _ _) as [entries|] eqn:E; [|discriminate].
  injection Hinst as <-.
  destruct (installed_entries net0 entries
              (default ∅ (caches w0 !! CACHE_NAME)) E) as [_ Hv].
  { destruct Hinv0 as [_ Hdom].
    destruct (caches w0 !! CACHE_NAME) as [c0|] eqn:E0; simpl.
    - by apply Hdom.
    - apply empty_subseteq. }
  destruct (Hv path Hpath) as (Hlook & r & Hr & Hacc).
  rewrite Hnet0 in Hr, Hlook. injection Hr as <-.
  match type of Hinv1 with
  | storage_invariant _ ?w1 =>
      pose proof (λ c, run_keeps_static evs w1 c Hinv1 Hevs) as Hstatic
  end.
  cbn [caches] in Hstatic.
  rewrite lookup_store_all, decide_True in Hstatic by reflexivity.
  rewrite lookup_open_partition, decide_True in Hstatic by reflexivity.
  specialize (Hstatic _ eq_refl).
  match goal with
  | |- context [run location ?w1 evs] =>
      destruct (fetch_listener_offline net (asset_request location path)
                  (run location w1 evs) eq_refl Hp Hnet) as (w' & Eresp)
  end.
  exists w'. split.
  - rewrite Eresp. do 3 f_equal.
    destruct (lookup_in RUNTIME_CACHE _ _); [reflexivity|].
    unfold lookup_in. rewrite Hstatic. simpl. by rewrite Hlook.
  - unfold addAll_accepts in Hacc.
    apply andb_true_iff in Hacc as [Hacc _].
    apply andb_true_iff in Hacc as [H1 H2].
    apply Z.leb_le in H1, H2. split; assumption.
Qed.

End StaticPartition.

Lemma install_all_or_nothing_witness :
  (∃ w' c,
     install_listener sample_location (online "v1:") fresh = (Fulfilled tt, w')
     ∧ caches w' !! CACHE_NAME = Some c
     ∧ dom c = asset_keys sample_location)
  ∧ (∃ reason w',
       install_listener sample_location offline fresh = (Rejected reason, w')
       ∧ caches w' = open_partition CACHE_NAME ∅).
Proof.
  assert (reachable sample_location fresh) as Hfresh
    by (apply reachable_initial; split; reflexivity).
  split.
  - destruct (install_all_or_nothing sample_location (online "v1:") fresh
                Hfresh) as [Hok _].
    destruct Hok as (w' & c & E & Hc & Hd & _).
    + repeat constructor; eexists; vm_compute; reflexivity.
    + exists w', c. auto.
  - destruct (install_all_or_nothing sample_location offline fresh Hfresh)
      as [_ Hko].
    destruct Hko as (reason & w' & E & Hc & _).
    + left. reflexivity.
    + exists reason, w'. auto.
Defined.

Lemma static_asset_served_offline_witness :
  ∃ w',
    fetch_listener offline sample_request
      (run sample_location (install_listener sample_location (online "v1:") fresh).2
           [EvActivate;
            EvFetch (online "v2:")
              (mkRequest "GET" "https://example.org/memory-match/cards.json");
            EvSettle 0])
    = (RespondWith
         (Fulfilled (page "v1:https://example.org/memory-match/index.html")),
       w').
Proof.
  destruct (static_asset_served_offline sample_location fresh (online "v1:")
              (install_listener sample_location (online "v1:") fresh).2
              [EvActivate;
               EvFetch (online "v2:")
                 (mkRequest "GET" "https://example.org/memory-match/cards.json");
               EvSettle 0]
              "./index.html"
              (page "v1:https://example.org/memory-match/index.html")
              offline)
    as (w' & E & _).
  - apply reachable_initial. split; reflexivity.
  - vm_compute. reflexivity.
  - apply list_elem_of_further, list_elem_of_here.
  - reflexivity.
  - repeat constructor.
  - reflexivity.
  - reflexivity.
  - exists w'. exact E.
Defined.

(** C8 as stated fails: the asset was fetched again, with status 200,
    after the install; the copy that landed in the runtime partition is
    what an offline request gets, not the response stored at install
    time. *)
Lemma runtime_copy_shadows_static :
  ¬ static_served_as_specified sample_location fresh (online "v1:")
      [EvFetch (online "v2:") sample_request; EvSettle 0]
      "./index.html" offline.
Proof.
  intros H.
  specialize (H (install_listener sample_location (online "v1:") fresh).2
                (page "v1:https://example.org/memory-match/index.html")).
  assert (install_listener sample_location (online "v1:") fresh
          = (Fulfilled tt,
             (install_listener sample_location (online "v1:") fresh).2))
    as Hinst by (vm_compute; reflexivity).
  specialize (H Hinst eq_refl eq_refl).
  vm_compute in H. discriminate H.
Qed.

(** * Further properties of the handlers *)

(** ** The fetch path *)

Section FetchPath.

Implicit Types (w : World) (request : Request) (net : Network).

(** What the listener answers, as a function of the request, the network
    outcome and the two partitions it consults. *)
Lemma fetch_listener_answer net request w :
  (fetch_listener net request w).1
  = if negb (String.eqb (method request) "GET")
       || negb (String.prefix "http" (protocol (url request)))
    then PassThrough
    else RespondWith
           (Fulfilled
              match net request with
              | Some response => response
              | None =>
                  default
                    (default offline_response
                       (lookup_in CACHE_NAME request (caches w)))
                    (lookup_in RUNTIME_CACHE request (caches w))
              end).
Proof.
  unfold fetch_listener.
  destruct (negb (String.eqb (method request) "GET")); [reflexivity|].
  destruct (negb (String.prefix "http" (protocol (url request))));
    [reflexivity|].
  cbn [orb].
  destruct (net request) as [response|] eqn:Hnet.
  - by rewrite (networkFirstStrategy_online _ _ _ _ Hnet).
  - rewrite (networkFirstStrategy_offline _ _ _ Hnet).
    by destruct (lookup_in RUNTIME_CACHE request (caches w)).
Qed.

(** The entries of the storage after the listener ran: none has changed. *)
Lemma fetch_listener_lookups net request w name request' :
  lookup_in name request' (caches (fetch_listener net request w).2)
  = lookup_in name request' (caches w).
Proof.
  unfold fetch_listener.
  destruct (negb (String.eqb (method request) "GET")); [reflexivity|].
  destruct (negb (String.prefix "http" (protocol (url request))));
    [reflexivity|].
  destruct (net request) as [response|] eqn:Hnet.
  - rewrite (networkFirstStrategy_online _ _ _ _ Hnet). cbn [snd caches].
    apply lookup_in_open_partition.
  - rewrite (networkFirstStrategy_offline _ _ _ Hnet).
    destruct (lookup_in RUNTIME_CACHE request (caches w)); cbn [snd caches];
      by rewrite ?lookup_in_open_partition.
Qed.

(** X1.  The listener declines exactly the requests that are not GET or
    whose protocol does not begin with "http"; declining makes no call and
    changes nothing.  Every other request is answered through
    [respondWith]. *)
Theorem fetch_listener_declines_iff net request w :
  ((fetch_listener net request w).1 = PassThrough
   ↔ method request ≠ "GET"
     ∨ String.prefix "http" (protocol (url request)) = false)
  ∧ ((fetch_listener net request w).1 = PassThrough →
     (fetch_listener net request w).2 = w).
Proof.
  split.
  - rewrite fetch_listener_answer. split.
    + destruct (String.eqb (method request) "GET") eqn:Hm;
        [|left; by apply String.eqb_neq].
      destruct (String.prefix "http" (protocol (url request)));
        [discriminate | by right].
    + intros [Hm | Hp].
      * apply String.eqb_neq in Hm. by rewrite Hm.
      * rewrite Hp. by rewrite orb_true_r.
  - unfold fetch_listener.
    destruct (negb (String.eqb (method request) "GET")); [reflexivity|].
    destruct (negb (String.prefix "http" (protocol (url request))));
      [reflexivity|].
    destruct (networkFirstStrategy net request w). discriminate.
Qed.

(** X3.  The strategy makes exactly one network attempt per request,
    whether it succeeds or throws: there is no retry. *)
Theorem networkFirstStrategy_single_attempt net request w :
  network_fetches (trace (networkFirstStrategy net request w).2)
  = S (network_fetches (trace w)).
Proof.
  unfold network_fetches.
  destruct (net request) as [response|] eqn:Hnet.
  - rewrite (networkFirstStrategy_online _ _ _ _ Hnet). cbn [snd trace].
    rewrite !List.filter_app, !length_app.
    destruct (status response =? 200); simpl; lia.
  - rewrite (networkFirstStrategy_offline _ _ _ Hnet).
    destruct (lookup_in RUNTIME_CACHE request (caches w)); cbn [snd trace];
      rewrite List.filter_app, length_app; simpl; lia.
Qed.

(** X4.  Online, then offline.  When a GET request over http(s) was
    answered from the network with a status 200 response and the write it
    issued has landed, the same request made while the fetch throws is
    answered with that very response, whatever the partitions held
    before. *)
Theorem cached_copy_served_offline net1 net2 request response w :
  method request = "GET" →
  String.prefix "http" (protocol (url request)) = true →
  net1 request = Some response →
  status response = 200 →
  net2 request = None →
  (fetch_listener net2 request
     (settle (length (detached w)) (fetch_listener net1 request w).2)).1
  = RespondWith (Fulfilled response).
Proof.
  intros Hm Hp Hnet1 H200 Hnet2.
  rewrite fetch_listener_answer, Hm, Hp, Hnet2.
  change (negb ("GET" =? "GET")%string || negb true) with false.
  cbv iota.
  rewrite (fetch_listener_intercepts _ _ _ Hm Hp).
  rewrite (networkFirstStrategy_online _ _ _ _ Hnet1). cbn [snd].
  apply Z.eqb_eq in H200. rewrite H200.
  destruct w as [cs ds tr]. cbn [caches detached trace].
  rewrite settle_last. cbn [caches].
  rewrite lookup_in_store by apply open_partition_is_Some.
  reflexivity.
Qed.

(** X5.  Handling a request changes no answer by itself: right after the
    listener ran (before any write it issued has landed), every request is
    answered as it would have been had the listener not run. *)
Theorem fetch_listener_leaves_answers net1 request1 net2 request2 w :
  (fetch_listener net2 request2 (fetch_listener net1 request1 w).2).1
  = (fetch_listener net2 request2 w).1.
Proof.
  rewrite !fetch_listener_answer. by rewrite !fetch_listener_lookups.
Qed.

End FetchPath.

Lemma cached_copy_served_offline_witness :
  (fetch_listener offline sample_request
     (settle 0 (fetch_listener (online "v2:") sample_request fresh).2)).1
  = RespondWith
      (Fulfilled (page "v2:https://example.org/memory-match/index.html")).
Proof.
  apply (cached_copy_served_offline (online "v2:") offline sample_request
           (page "v2:https://example.org/memory-match/index.html") fresh);
    reflexivity.
Defined.

(** ** Lifecycle and messages *)

Section Lifecycle.

Variable location : string.

Implicit Types (w : World) (request : Request) (net : Network).

Lemma activate_listener_caches w name :
  caches (activate_listener w).2 !! name
  = if is_old name then None else caches w !! name.
Proof.
  destruct (activate_listener_run w) as [tr E]. rewrite E. cbn [snd caches].
  apply delete_where_keys.
Qed.

Lemma lookup_in_activate w name request :
  is_old name = false →
  lookup_in name request (caches (activate_listener w).2)
  = lookup_in name request (caches w).
Proof.
  intros Hold. unfold lookup_in. by rewrite activate_listener_caches, Hold.
Qed.

(** X6.  Activating twice in a row leaves the storage as activating once
    does: the sweep has nothing left to delete. *)
Theorem activate_idempotent w :
  caches (activate_listener (activate_listener w).2).2
  = caches (activate_listener w).2.
Proof.
  apply map_eq. intros name. rewrite !activate_listener_caches.
  by destruct (is_old name).
Qed.

(** X7.  Activation is invisible to the fetch path: every request is
    answered after activation as it would have been before, because the
    sweep spares the two partitions the strategy reads. *)
Theorem activate_leaves_answers net request w :
  (fetch_listener net request (activate_listener w).2).1
  = (fetch_listener net request w).1.
Proof.
  rewrite !fetch_listener_answer.
  by rewrite !lookup_in_activate by reflexivity.
Qed.

(** X8.  After a CLEAR_CACHE message nothing is served from cache any
    more: a GET request over http(s) whose fetch throws gets the
    synthesized 503 answer, whatever had been cached or installed. *)
Theorem offline_after_clear_cache net request w :
  method request = "GET" →
  String.prefix "http" (protocol (url request)) = true →
  net request = None →
  (fetch_listener net request (message_listener clear_cache w).2).1
  = RespondWith (Fulfilled offline_response).
Proof.
  intros Hm Hp Hnet. rewrite fetch_listener_answer, Hm, Hp, Hnet.
  rewrite message_listener_clear. cbn [snd caches].
  unfold lookup_in. by rewrite !lookup_empty.
Qed.

(** X9.  A message touches the cache storage only when its type is
    CLEAR_CACHE.  A SKIP_WAITING message signals skip-waiting and does
    nothing else; a message of any other type, without a type or without
    data is ignored: the handler fulfils having made no call at all. *)
Theorem message_listener_other_types (data : option MessageData) w :
  (data ≫= msg_type = Some "SKIP_WAITING" →
   message_listener data w
   = (Fulfilled tt,
      mkWorld (caches w) (detached w) (trace w ++ [SkipWaiting])))
  ∧ (data ≫= msg_type ≠ Some "SKIP_WAITING" →
     data ≫= msg_type ≠ Some "CLEAR_CACHE" →
     message_listener data w = (Fulfilled tt, w)).
Proof.
  assert (∀ type, has_type data type = true ↔ data ≫= msg_type = Some type)
    as Htype.
  { intros type. unfold has_type. destruct data as [[[t|]]|]; simpl;
      try (split; [discriminate | intros [=]]).
    rewrite String.eqb_eq. split; [by intros -> | by intros [= ->]]. }
  destruct w as [cs ds tr]. split.
  - intros Hs. unfold message_listener.
    rewrite (proj2 (Htype "SKIP_WAITING") Hs).
    assert (has_type data "CLEAR_CACHE" = false) as ->.
    { apply not_true_is_false. rewrite Htype, Hs. discriminate. }
    by run_task.
  - intros Hs Hc. unfold message_listener.
    assert (has_type data "SKIP_WAITING" = false) as ->
      by (apply not_true_is_false; by rewrite Htype).
    assert (has_type data "CLEAR_CACHE" = false) as ->
      by (apply not_true_is_false; by rewrite Htype).
    by run_task.
Qed.

(** X10.  Installing twice against the same network leaves the storage as
    installing once does, whether the fetches succeed or not. *)
Theorem install_idempotent net w :
  caches (install_listener location net
            (install_listener location net w).2).2
  = caches (install_listener location net w).2.
Proof.
  rewrite !install_listener_run.
  destruct (mapM (fetch_entry location net) STATIC_ASSETS)
    as [entries|] eqn:E; cbn [snd caches]; apply map_eq; intros name.
  - rewrite !lookup_store_all. case_decide as Hn; [subst name|].
    + rewrite !lookup_open_partition, !decide_True by reflexivity.
      rewrite lookup_store_all, decide_True by reflexivity.
      rewrite lookup_open_partition, decide_True by reflexivity.
      simpl. f_equal. apply map_eq. intros k.
      destruct (fetched_entries _ _ _ _ E) as [_ Hall].
      assert (Forall (λ e, (λ k, net (mkRequest k.1 k.2)) (req_key e.1)
                           = Some e.2) entries) as Hf.
      { eapply Forall_impl; [exact Hall|]. intros [[m u] r] [Hr _]. exact Hr. }
      rewrite !(lookup_insert_all _ _ Hf). by case_decide.
    + rewrite !lookup_open_partition, !decide_False by congruence.
      rewrite lookup_store_all, decide_False by exact Hn.
      rewrite lookup_open_partition. by rewrite decide_False by congruence.
  - rewrite !lookup_open_partition. case_decide; [subst name|reflexivity].
    by destruct (caches w !! CACHE_NAME).
Qed.

(** X11.  In every state the worker can reach, the static partition, when
    it exists, holds entries for listed assets only (GET requests for the
    resolved paths of the asset list), and every write in flight targets
    the runtime partition. *)
Theorem reachable_static_partition_only_assets w :
  reachable location w →
  (∀ c k, caches w !! CACHE_NAME = Some c → is_Some (c !! k) →
          ∃ path, path ∈ STATIC_ASSETS
                  ∧ k = ("GET", resolve_url location path))
  ∧ (∀ name request response,
       (name, request, response) ∈ detached w → name = RUNTIME_CACHE).
Proof.
  intros Hreach. apply reachable_invariant in Hreach as [Hd Hdom]. split.
  - intros c k Hc Hk. apply elem_of_dom in Hk. apply (Hdom c Hc) in Hk.
    unfold asset_keys in Hk. apply elem_of_list_to_set in Hk.
    apply list_elem_of_fmap in Hk as (path & -> & Hpath). eauto.
  - intros name request response Hin.
    exact (proj1 (Forall_forall _ _) Hd _ Hin).
Qed.

(** X12.  Only an install or a CLEAR_CACHE message changes the static
    partition once it exists: through any sequence of other events
    (activations, fetches, landing writes, other messages, sync, push and
    notification events) it keeps exactly the entries it had. *)
Theorem static_partition_unchanged evs w c :
  reachable location w →
  Forall keeps_static evs →
  caches w !! CACHE_NAME = Some c →
  caches (run location w evs) !! CACHE_NAME = Some c.
Proof.
  intros Hreach. apply run_keeps_static. by apply reachable_invariant.
Qed.

End Lifecycle.

Lemma offline_after_clear_cache_witness :
  (fetch_listener offline sample_request
     (message_listener clear_cache
        (install_listener sample_location (online "v1:") fresh).2).2).1
  = RespondWith (Fulfilled offline_response).
Proof.
  apply (offline_after_clear_cache offline sample_request); reflexivity.
Defined.

Lemma reachable_static_partition_only_assets_witness :
  ∃ path, path ∈ STATIC_ASSETS
          ∧ ("GET", "https://example.org/memory-match/index.html")
            = ("GET", resolve_url sample_location path).
Proof.
  assert (lookup_in CACHE_NAME sample_request
            (caches (dispatch sample_location fresh (EvInstall (online "v1:"))))
          = Some (page "v1:https://example.org/memory-match/index.html"))
    as Hlook by (vm_compute; reflexivity).
  unfold lookup_in in Hlook.
  destruct (caches (dispatch sample_location fresh (EvInstall (online "v1:")))
            !! CACHE_NAME) as [c|] eqn:Hc; [|discriminate Hlook].
  apply (proj1 (reachable_static_partition_only_assets sample_location _
                  (reachable_step _ _ _
                     (reachable_initial _ fresh (conj eq_refl eq_refl))))
               c (req_key sample_request) Hc).
  exists (page "v1:https://example.org/memory-match/index.html").
  exact Hlook.
Defined.

Lemma static_partition_unchanged_witness :
  caches (run sample_location
            (dispatch sample_location fresh (EvInstall offline))
            [EvActivate; EvFetch (online "v2:") sample_request; EvSettle 0])
  !! CACHE_NAME = Some ∅.
Proof.
  apply (static_partition_unchanged sample_location).
  - apply reachable_step, reachable_initial. split; reflexivity.
  - repeat constructor.
  - vm_compute. reflexivity.
Defined.

(** ** What reaches the runtime partition *)

Section RuntimePartition.

Variable location : string.

Implicit Types (w : World) (ev : Event).

Lemma runtime_only_200_intro w w' :
  runtime_only_200 w →
  (caches w' !! RUNTIME_CACHE = caches w !! RUNTIME_CACHE
   ∨ caches w' !! RUNTIME_CACHE = None
   ∨ caches w' !! RUNTIME_CACHE = Some ∅) →
  Forall (λ p, p.1.1 = RUNTIME_CACHE → status p.2 = 200) (detached w') →
  runtime_only_200 w'.
Proof.
  intros [Hc _] Hcs Hd. split; [|exact Hd].
  intros c k r Hlook Hk. destruct Hcs as [E | [E | E]]; rewrite E in Hlook.
  - by eapply Hc.
  - discriminate.
  - injection Hlook as <-. by rewrite lookup_empty in Hk.
Qed.

Lemma dispatch_runtime_only_200 w ev :
  runtime_only_200 w → runtime_only_200 (dispatch location w ev).
Proof.
  intros Hinv. pose proof Hinv as [Hc Hd].
  destruct ev; cbn [dispatch].
  - apply (runtime_only_200_intro w); [exact Hinv| |].
    + left. rewrite install_listener_run.
      destruct (mapM _ _); cbn [snd caches].
      * rewrite lookup_store_all, decide_False by discriminate.
        rewrite lookup_open_partition. by rewrite decide_False by discriminate.
      * rewrite lookup_open_partition. by rewrite decide_False by discriminate.
    + rewrite install_listener_run. by destruct (mapM _ _).
  - apply (runtime_only_200_intro w); [exact Hinv| |].
    + left. by rewrite activate_listener_caches.
    + destruct (activate_listener_run w) as [tr E]. by rewrite E.
  - unfold fetch_listener.
    destruct (negb (String.eqb (method request) "GET")); [exact Hinv|].
    destruct (negb (String.prefix "http" (protocol (url request))));
      [exact Hinv|].
    destruct (net request) as [response|] eqn:Hnet.
    + rewrite (networkFirstStrategy_online _ _ _ _ Hnet).
      apply (runtime_only_200_intro w); [exact Hinv| |]; cbn [snd caches detached].
      * rewrite lookup_open_partition, decide_True by reflexivity.
        destruct (caches w !! RUNTIME_CACHE); [by left | by right; right].
      * apply Forall_app. split; [exact Hd|].
        destruct (status response =? 200) eqn:H200; repeat constructor.
        intros _. by apply Z.eqb_eq.
    + rewrite (networkFirstStrategy_offline _ _ _ Hnet).
      destruct (lookup_in RUNTIME_CACHE request (caches w));
        (apply (runtime_only_200_intro w); [exact Hinv| |exact Hd]);
        cbn [snd caches].
      * rewrite lookup_open_partition, decide_True by reflexivity.
        destruct (caches w !! RUNTIME_CACHE); [by left | by right; right].
      * rewrite lookup_open_partition, decide_False by discriminate.
        rewrite lookup_open_partition, decide_True by reflexivity.
        destruct (caches w !! RUNTIME_CACHE); [by left | by right; right].
  - destruct (has_type data "CLEAR_CACHE") eqn:Ht.
    + apply has_type_clear in Ht as ->. rewrite message_listener_clear.
      apply (runtime_only_200_intro w); [exact Hinv| |exact Hd].
      right; left. apply lookup_empty.
    + destruct (message_listener_storage data w Ht) as [E1 E2].
      apply (runtime_only_200_intro w); [exact Hinv| |].
      * left. by rewrite E1.
      * by rewrite E2.
  - destruct w as [cs ds tr]. unfold sync_listener, syncGameStats.
    destruct (String.eqb tag "sync-game-stats"); run_task;
      by apply (runtime_only_200_intro (mkWorld cs ds tr)); [|left|].
  - rewrite push_listener_run.
    by apply (runtime_only_200_intro w); [|left|].
  - rewrite notificationclick_listener_run.
    by apply (runtime_only_200_intro w); [|left|].
  - destruct w as [cs ds tr]. unfold periodicsync_listener, checkDailyChallenge.
    destruct (String.eqb tag "daily-challenge"); run_task;
      by apply (runtime_only_200_intro (mkWorld cs ds tr)); [|left|].
  - unfold settle.
    destruct (detached w !! i) as [[[name request] response]|] eqn:Ei;
      [|exact Hinv].
    split; cbn [caches detached]; [|by apply Forall_delete].
    intros c k r. unfold store.
    destruct (decide (name = RUNTIME_CACHE)) as [->|Hne].
    + rewrite lookup_alter_eq.
      destruct (caches w !! RUNTIME_CACHE) as [c0|] eqn:E0; [|discriminate].
      simpl. intros [= <-]. rewrite lookup_insert.
      case_decide.
      * intros [= <-].
        exact (proj1 (Forall_lookup _ _) Hd _ _ Ei eq_refl).
      * by apply Hc.
    + rewrite lookup_alter_ne by exact Hne. apply Hc.
Qed.

(** X13.  Nothing but status 200 responses ever reaches the runtime
    partition.  If the runtime partition and the writes in flight towards
    it hold status 200 responses only (as when the partition is absent or
    empty and no write is in flight), this remains so after any sequence
    of events; in particular the 503 answer synthesized offline, and any
    404 or 500 received from the network, are never stored there. *)
Theorem runtime_partition_only_200 evs w :
  runtime_only_200 w → runtime_only_200 (run location w evs).
Proof.
  unfold run. revert w.
  induction evs as [|ev evs IH]; intros w Hinv; [exact Hinv|].
  simpl. apply IH. by apply dispatch_runtime_only_200.
Qed.

End RuntimePartition.

Lemma runtime_partition_only_200_witness :
  runtime_only_200
    (run sample_location fresh
       [EvInstall (online "v1:");
        EvFetch (online "v2:") sample_request;
        EvFetch (λ _, Some (mkResponse 404 "Not Found" [] "")) sample_request;
        EvSettle 0; EvFetch offline sample_request]).
Proof.
  apply (runtime_partition_only_200 sample_location).
  split; [intros c k r Hc; discriminate Hc | constructor].
Defined.

(** ** Background sync, push and notifications *)

Section Background.

Implicit Types (w : World) (tag : string).

(** X14.  The sync and periodicsync handlers do no work: for every tag,
    recognised or not, they fulfil, leave the cache storage and the writes
    in flight as they are, and call nothing but the console. *)
Theorem sync_handlers_do_no_work tag w :
  (∃ lines,
     sync_listener tag w
     = (Fulfilled tt,
        mkWorld (caches w) (detached w) (trace w ++ (ConsoleLog <$> lines))))
  ∧ (∃ lines,
       periodicsync_listener tag w
       = (Fulfilled tt,
          mkWorld (caches w) (detached w) (trace w ++ (ConsoleLog <$> lines)))).
Proof.
  destruct w as [cs ds tr]. split.
  - unfold sync_listener, syncGameStats.
    destruct (String.eqb tag "sync-game-stats"); run_task.
    + exists [["[SW] Background sync:"; tag];
              ["[SW] Syncing game statistics..."]].
      by rewrite <- app_assoc.
    + by exists [["[SW] Background sync:"; tag]].
  - unfold periodicsync_listener, checkDailyChallenge.
    destruct (String.eqb tag "daily-challenge"); run_task.
    + by exists [["[SW] Checking for daily challenge..."]].
    + exists []. by rewrite app_nil_r.
Qed.

Lemma js_or_nonempty v default : default ≠ "" → js_or v default ≠ "".
Proof.
  intros Hd. unfold js_or. destruct v as [s|]; [|exact Hd].
  destruct (String.eqb s "") eqn:E; [exact Hd|]. by apply String.eqb_neq.
Qed.


(** X16.  Whatever the push payload (absent, partial, or with empty
    fields), the notification shown has a non-empty title, body and icon,
    carries a non-empty address as data, and has the fixed badge
    "./icon-192.png", which the payload's icon does not replace. *)
Theorem push_notification_never_blank (payload : option PushData) :
  notification_title (push_notification payload) ≠ ""
  ∧ opt_body (notification_options (push_notification payload)) ≠ ""
  ∧ opt_icon (notification_options (push_notification payload)) ≠ ""
  ∧ opt_badge (notification_options (push_notification payload))
    = "./icon-192.png"
  ∧ ∃ target,
      opt_data (notification_options (push_notification payload))
      = Some target ∧ target ≠ "".
Proof.
  unfold push_notification. cbn [notification_title notification_options
    opt_body opt_icon opt_badge opt_data].
  repeat split; try (apply js_or_nonempty; discriminate).
  eexists. split; [reflexivity|]. apply js_or_nonempty. discriminate.
Qed.

End Background.

